(** * GRCnewsAssistant: a shallow embedding of the article pipeline

    Embedding of [GRCnewsAssistant.py]: the search client
    ([search_news]), the article store ([save_to_csv], [save_urls]),
    the content extractor ([extract_article_content]), the analysis client
    ([analyze_with_fabric]), the rated-dataset builder ([create_rated_csv])
    and the extraction/analysis loop of [main].

    Python values that come from JSON (the news API response, the fabric
    output) are modelled by [jv]; Python exceptions by [exn]; files by a
    finite map from paths to their rows (a row is the list of cells that
    [csv.writer.writerow] writes). *)

#[export] Set Warnings "-register-all".
From Stdlib Require Import String Ascii ZArith List Bool.
From stdpp Require Import base gmap strings list.
Import ListNotations.
Open Scope string_scope.

(** ** JSON values as Python sees them after [json.loads] *)

Inductive jv : Type :=
| JNull
| JBool (b : bool)
| JNum (n : Z)
| JStr (s : string)
| JArr (l : list jv)
| JObj (kvs : list (string * jv)).

(** Python truthiness ([if x:]). *)
Definition truthy (v : jv) : bool :=
  match v with
  | JNull => false
  | JBool b => b
  | JNum n => negb (Z.eqb n 0)
  | JStr s => negb (String.eqb s "")
  | JArr l => negb (Nat.eqb (length l) 0)
  | JObj kvs => negb (Nat.eqb (length kvs) 0)
  end.

(** [d.get(k)] / [d[k]] on a dict decoded by [json.loads]: with duplicate
    keys the last one wins. [None] is a missing key. *)
Definition obj_lookup (kvs : list (string * jv)) (k : string) : option jv :=
  match List.find (fun kv => String.eqb (fst kv) k) (rev kvs) with
  | Some (_, v) => Some v
  | None => None
  end.

(** Python exceptions that matter here: an ordinary [Exception] (caught by
    [except Exception]) and [SystemExit] raised by [sys.exit] (not caught). *)
Inductive exn : Type :=
| PyErr (msg : string)
| SysExit (code : Z).

(** [v[k]]: KeyError on a dict without [k], TypeError on a non-dict. *)
Definition py_getitem (v : jv) (k : string) : exn + jv :=
  match v with
  | JObj kvs =>
      match obj_lookup kvs k with
      | Some x => inr x
      | None => inl (PyErr ("KeyError: '" ++ k ++ "'"))
      end
  | _ => inl (PyErr "TypeError: not subscriptable by str")
  end.

(** [for x in v]: a list yields its items, a string its characters, a dict
    its keys; anything else is not iterable. *)
Definition py_iter (v : jv) : exn + list jv :=
  match v with
  | JArr l => inr l
  | JStr s => inr (map (fun c => JStr (String c EmptyString)) (list_ascii_of_string s))
  | JObj kvs => inr (map (fun kv => JStr (fst kv)) kvs)
  | _ => inl (PyErr "TypeError: object is not iterable")
  end.

(** ** Rendering values as text *)

Definition digit_char (n : Z) : ascii := ascii_of_nat (48 + Z.to_nat n).

(** Decimal digits of [n >= 0], most significant first. *)
Fixpoint dec_digits (fuel : nat) (n : Z) (acc : string) : string :=
  match fuel with
  | O => acc
  | S f =>
      let acc' := String (digit_char (n mod 10)) acc in
      if Z.ltb n 10 then acc' else dec_digits f (n / 10) acc'
  end.

(** [str(n)] for a Python int. *)
Definition z_to_dec (n : Z) : string :=
  let m := Z.abs n in
  let s := dec_digits (S (Z.to_nat (Z.log2 m))) m "" in
  if Z.ltb n 0 then "-" ++ s else s.

(** [sep.join(parts)] on a list of Python strings. *)
Fixpoint str_join (sep : string) (parts : list string) : string :=
  match parts with
  | [] => ""
  | [p] => p
  | p :: ps => p ++ sep ++ str_join sep ps
  end.

(** [repr(v)] (string quoting without escapes). *)
Fixpoint py_repr (v : jv) : string :=
  match v with
  | JNull => "None"
  | JBool true => "True"
  | JBool false => "False"
  | JNum n => z_to_dec n
  | JStr s => "'" ++ s ++ "'"
  | JArr l => "[" ++ str_join ", " (map py_repr l) ++ "]"
  | JObj kvs =>
      "{" ++ str_join ", " (map (fun kv => "'" ++ fst kv ++ "': " ++ py_repr (snd kv)) kvs) ++ "}"
  end.

(** [str(v)]. *)
Definition py_str (v : jv) : string :=
  match v with
  | JStr s => s
  | _ => py_repr v
  end.

(** The text [csv.writer] writes for one cell: [None] becomes the empty
    string, strings are written as they are, other values through [str]. *)
Definition csv_cell (v : jv) : string :=
  match v with
  | JNull => ""
  | _ => py_str v
  end.

(** [sep.join(v)]: every item of the iterable must be a string. *)
Definition py_join (sep : string) (v : jv) : exn + string :=
  match py_iter v with
  | inl e => inl e
  | inr items =>
      let strs := map (fun x => match x with JStr s => Some s | _ => None end) items in
      if forallb (fun o => match o with Some _ => true | None => false end) strs
      then inr (str_join sep (map (fun o => match o with Some s => s | None => "" end) strs))
      else inl (PyErr "TypeError: sequence item: expected str instance")
  end.

(** ** Articles *)

(** The dict built by [search_news] for one result item: all five keys are
    present; the last three hold whatever the API returned. *)
Record article := mk_article {
  a_date : jv;
  a_keyword : jv;
  a_headline : jv;
  a_description : jv;
  a_url : jv
}.

Definition row := list string.

(** The validity test of [save_to_csv]:
    [all(article.get(key) for key in ["date", "keyword", "headline", "description", "url"])]
    (an [article] dict always has five keys, so [article] itself is truthy). *)
Definition article_valid (a : article) : bool :=
  truthy (a_date a) && truthy (a_keyword a) && truthy (a_headline a)
  && truthy (a_description a) && truthy (a_url a).

(** The test [article and article.get("url")] of [save_urls] and
    [create_rated_csv]. *)
Definition has_url (a : article) : bool := truthy (a_url a).

Definition article_cells (a : article) : row :=
  [csv_cell (a_date a); csv_cell (a_keyword a); csv_cell (a_headline a);
   csv_cell (a_description a); csv_cell (a_url a)].

(** ** [search_news] *)

(** Outcome of [requests.get(url).json()]: a transport or decoding failure,
    or the decoded body. *)
Inductive http_result : Type :=
| HFail (msg : string)
| HJson (data : jv).

(** The dict literal built for one result item, evaluated key by key. *)
Definition search_item (keyword today : string) (item : jv) : exn + article :=
  match py_getitem item "title" with
  | inl e => inl e
  | inr t =>
      match py_getitem item "description" with
      | inl e => inl e
      | inr d =>
          match py_getitem item "link" with
          | inl e => inl e
          | inr l => inr (mk_article (JStr today) (JStr keyword) t d l)
          end
      end
  end.

(** The [for article in data["results"]] loop; an exception leaves the loop. *)
Fixpoint search_items (keyword today : string) (items : list jv) : exn + list article :=
  match items with
  | [] => inr []
  | it :: rest =>
      match search_item keyword today it with
      | inl e => inl e
      | inr a =>
          match search_items keyword today rest with
          | inl e => inl e
          | inr l => inr (a :: l)
          end
      end
  end.

(** [search_news(keyword, api_key)]: the returned list and the lines logged.
    [today] is [datetime.date.today().strftime("%Y-%m-%d")]. *)
Definition search_news (keyword today : string) (resp : http_result)
  : list article * list string :=
  let fail := fun e => ([], ["Error fetching news: " ++ e]) in
  match resp with
  | HFail m => fail m
  | HJson data =>
      match py_getitem data "status" with
      | inl (PyErr m) => fail m
      | inl (SysExit _) => fail ""
      | inr st =>
          match st with
          | JStr "success" =>
              match py_getitem data "results" with
              | inl (PyErr m) => fail m
              | inl (SysExit _) => fail ""
              | inr res =>
                  match py_iter res with
                  | inl (PyErr m) => fail m
                  | inl (SysExit _) => fail ""
                  | inr items =>
                      match search_items keyword today items with
                      | inl (PyErr m) => fail m
                      | inl (SysExit _) => fail ""
                      | inr arts => (arts, [])
                      end
                  end
              end
          | _ =>
              let msg := match data with
                         | JObj kvs => match obj_lookup kvs "results" with
                                       | Some r => py_str r
                                       | None => "No error message"
                                       end
                         | _ => ""
                         end in
              ([], ["API request failed: " ++ msg])
          end
      end
  end.

(** ** The article store: files as a map from path to rows *)

Abbreviation files := (gmap string (list row)).

Definition article_header : row := ["date"; "keyword"; "title"; "description"; "url"].

(** The [for article in articles] loop of [save_to_csv]. *)
Fixpoint valid_rows (arts : list article) : list row :=
  match arts with
  | [] => []
  | a :: rest =>
      if article_valid a then article_cells a :: valid_rows rest else valid_rows rest
  end.

(** [save_to_csv(articles, filename)]: the header is written when the file
    does not exist, then the valid articles are appended. *)
Definition save_to_csv (fs : files) (arts : list article) (filename : string) : files :=
  let fs1 := match fs !! filename with
             | None => <[filename := [article_header]]> fs
             | Some _ => fs
             end in
  let existing := match fs1 !! filename with Some rs => rs | None => [] end in
  <[filename := (existing ++ valid_rows arts)%list]> fs1.

(** The [for article in articles] loop of [save_urls]. *)
Fixpoint url_rows (arts : list article) : list row :=
  match arts with
  | [] => []
  | a :: rest =>
      if has_url a then [csv_cell (a_url a)] :: url_rows rest else url_rows rest
  end.

(** [save_urls(articles, filename)]: the file is opened with mode ['w']. *)
Definition save_urls (fs : files) (arts : list article) (filename : string) : files :=
  <[filename := url_rows arts]> fs.

(** ** The rated-dataset builder *)

Definition rated_header : row :=
  ["date"; "keyword"; "title"; "description"; "url";
   "one-sentence-summary"; "labels"; "rating";
   "rating-explanation"; "quality-score"; "quality-score-explanation"].

(** [analysis.get(k, d)]. *)
Definition obj_get (kvs : list (string * jv)) (k : string) (d : jv) : jv :=
  match obj_lookup kvs k with Some x => x | None => d end.

(** The analysis part of a row when [analysis] is truthy. A truthy value
    that is not a dict has no [.get] (AttributeError); [join] raises on a
    value that is not an iterable of strings. *)
Definition analysis_cells (analysis : jv) : exn + row :=
  match analysis with
  | JObj kvs =>
      match py_join "; " (obj_get kvs "rating-explanation" (JArr [])) with
      | inl e => inl e
      | inr rexp =>
          match py_join "; " (obj_get kvs "quality-score-explanation" (JArr [])) with
          | inl e => inl e
          | inr qexp =>
              inr [csv_cell (obj_get kvs "one-sentence-summary" (JStr ""));
                   csv_cell (obj_get kvs "labels" (JStr ""));
                   csv_cell (obj_get kvs "rating" (JStr ""));
                   rexp;
                   py_str (obj_get kvs "quality-score" (JStr ""));
                   qexp]
          end
      end
  | _ => inl (PyErr "AttributeError: object has no attribute 'get'")
  end.

(** One iteration of the [zip] loop: [inr None] when the pair is skipped,
    [inr (Some r)] when row [r] is written. [None] for [analysis] is Python
    [None]. *)
Definition rated_row (a : article) (analysis : option jv) : exn + option row :=
  if has_url a then
    match analysis with
    | Some v =>
        if truthy v then
          match analysis_cells v with
          | inl e => inl e
          | inr cs => inr (Some (article_cells a ++ cs)%list)
          end
        else inr (Some (article_cells a ++ ["";"";"";"";"";""])%list)
    | None => inr (Some (article_cells a ++ ["";"";"";"";"";""])%list)
    end
  else inr None.

(** [for article, analysis in zip(articles, analysis_results)]: the rows
    written, and the exception that ended the loop, if any. *)
Fixpoint rated_rows (arts : list article) (analyses : list (option jv))
  : list row * option exn :=
  match arts, analyses with
  | a :: arts', an :: ans' =>
      match rated_row a an with
      | inl e => ([], Some e)
      | inr None => rated_rows arts' ans'
      | inr (Some r) => let '(rs, e) := rated_rows arts' ans' in (r :: rs, e)
      end
  | _, _ => ([], None)
  end.

(** [create_rated_csv(articles, analysis_results)]: ['grcdata_rated.csv'] is
    rewritten with the header and the rows written before any exception;
    the exception is logged. *)
Definition create_rated_csv (fs : files) (arts : list article) (analyses : list (option jv))
  : files * list string :=
  let '(rs, e) := rated_rows arts analyses in
  (<["grcdata_rated.csv" := rated_header :: rs]> fs,
   match e with
   | Some (PyErr m) => ["Error updating grcdata.csv with analysis: " ++ m]
   | _ => []
   end).

(** ** The content extractor *)

(** A [datetime.datetime]; [dt_offset] is the UTC offset in minutes of an
    aware value, [None] for a naive one. *)
Record datetime := mk_datetime {
  dt_year : Z; dt_month : Z; dt_day : Z;
  dt_hour : Z; dt_minute : Z; dt_second : Z; dt_microsecond : Z;
  dt_offset : option Z
}.

(** The last [w] decimal digits of [n >= 0], zero-padded ([%0wd]). *)
Fixpoint pad (w : nat) (n : Z) : string :=
  match w with
  | O => ""
  | S w' => pad w' (n / 10) ++ String (digit_char (n mod 10)) ""
  end.

(** [datetime.isoformat()]. *)
Definition isoformat (d : datetime) : string :=
  pad 4 (dt_year d) ++ "-" ++ pad 2 (dt_month d) ++ "-" ++ pad 2 (dt_day d)
  ++ "T" ++ pad 2 (dt_hour d) ++ ":" ++ pad 2 (dt_minute d) ++ ":" ++ pad 2 (dt_second d)
  ++ (if Z.eqb (dt_microsecond d) 0 then "" else "." ++ pad 6 (dt_microsecond d))
  ++ match dt_offset d with
     | None => ""
     | Some m =>
         (if Z.ltb m 0 then "-" else "+")
         ++ pad 2 (Z.abs m / 60) ++ ":" ++ pad 2 (Z.abs m mod 60)
     end.

(** The attributes of a newspaper [Article] after [download], [parse] and
    [nlp]. *)
Record np_article := mk_np_article {
  np_title : string;
  np_keywords : list string;
  np_authors : list string;
  np_summary : string;
  np_text : string;
  np_publish_date : option datetime
}.

(** How the newspaper library behaves on one URL: the exception raised by
    the constructor [Article(url, fetch_images=False)], by [download()],
    [parse()] and [nlp()] (if any), and the attributes obtained. *)
Record np_env := mk_np_env {
  ctor_raises : option string;
  download_raises : option string;
  parse_raises : option string;
  nlp_raises : option string;
  np_result : np_article
}.

(** The dict returned by [extract_article_content]. *)
Record content := mk_content {
  c_title : string;
  c_keywords : list string;
  c_authors : list string;
  c_summary : string;
  c_text : string;
  c_publish_date : string;
  c_url : string
}.

(** [x or "Not Found"] on a string attribute. *)
Definition or_not_found (s : string) : string :=
  if String.eqb s "" then "Not Found" else s.

(** The dict literal of the [try] body. *)
Definition content_of (url : string) (p : np_article) : content :=
  {| c_title := or_not_found (np_title p);
     c_keywords := match np_keywords p with [] => [] | ks => ks end;
     c_authors := match np_authors p with [] => ["Not Found"] | au => au end;
     c_summary := or_not_found (np_summary p);
     c_text := or_not_found (np_text p);
     c_publish_date := match np_publish_date p with
                       | Some d => isoformat d
                       | None => "Not Found"
                       end;
     c_url := url |}.

(** [extract_article_content(url)]: the outcome (an exception that leaves
    the function, or the returned value, [None] being Python [None]) and
    the lines logged. The constructor runs before the [try]. *)
Definition extract_article_content (env : np_env) (url : string)
  : (exn + option content) * list string :=
  match ctor_raises env with
  | Some m => (inl (PyErr m), [])
  | None =>
      let failed := fun m => (inr None, ["Failed to process article from " ++ url ++ ": " ++ m]) in
      match download_raises env with
      | Some m => failed m
      | None =>
          match parse_raises env with
          | Some m => failed m
          | None =>
              match nlp_raises env with
              | Some m => failed m
              | None => (inr (Some (content_of url (np_result env))), [])
              end
          end
      end
  end.

(** ** The analysis client *)

(** Outcome of one [subprocess.run(..., check=True)]. *)
Inductive proc : Type :=
| PDone
| PNonZero (code : Z)
| PNotFound
| PTimeout.

(** The exception [subprocess.run] raises for an outcome, if any. *)
Definition proc_error (p : proc) : option string :=
  match p with
  | PDone => None
  | PNonZero c => Some ("CalledProcessError: returned non-zero exit status " ++ z_to_dec c)
  | PNotFound => Some "FileNotFoundError"
  | PTimeout => Some "TimeoutExpired: timed out after 15 seconds"
  end.

Definition ascii_lower (c : ascii) : ascii :=
  let n := nat_of_ascii c in
  if (65 <=? n)%nat && (n <=? 90)%nat then ascii_of_nat (n + 32) else c.

Definition string_lower (s : string) : string :=
  string_of_list_ascii (map ascii_lower (list_ascii_of_string s)).

(** [get_clipboard_command()]; [xclip_found] tells whether running
    [xclip -version] finds the program. *)
Definition get_clipboard_command (system : string) (xclip_found : bool) : exn + list string :=
  let sys := string_lower system in
  if String.eqb sys "darwin" then inr ["pbpaste"]
  else if String.eqb sys "linux" then
    (if xclip_found then inr ["xclip"; "-selection"; "clipboard"; "-o"] else inl (SysExit 1))
  else if String.eqb sys "windows" then inr ["powershell.exe"; "-command"; "Get-Clipboard"]
  else inl (SysExit 1).

(** The machine [analyze_with_fabric] runs on: [platform.system()], the
    names [NamedTemporaryFile] picks, the outcome of the copy command on
    its input, whether xclip is installed, the outcome of the fabric
    pipeline and the output file parsed by [json.loads] ([None]: not JSON). *)
Record fabric_env := mk_fabric_env {
  system : string;
  tmp_in_name : string;
  tmp_out_name : string;
  run_copy : string -> string -> proc;
  xclip_found : bool;
  run_fabric : string -> proc;
  fabric_output : option jv
}.

Definition dquote : string := String (ascii_of_nat 34) "".

Definition formatted_content (c : content) : string :=
  "Title: " ++ c_title c ++ "
" ++ "Authors: " ++ str_join ", " (c_authors c) ++ "
" ++ "Keywords: " ++ str_join ", " (c_keywords c) ++ "
" ++ "Summary: " ++ c_summary c ++ "
" ++ "URL: " ++ c_url c ++ "
".

(** [analyze_with_fabric(content)] on the set [tmp] of existing temporary
    files: outcome, temporary files afterwards, lines logged. A JSON [null]
    output is Python [None]. *)
Definition analyze_with_fabric (env : fabric_env) (c : content) (tmp : gset string)
  : (exn + option jv) * gset string * list string :=
  let caught := fun m t => (inr None, t, ["Error in fabric analysis: " ++ m]) in
  let tmp1 := {[tmp_in_name env]} ∪ tmp in
  let copy_cmd := if String.eqb (system env) "Darwin" then "pbcopy" else "clip" in
  match proc_error (run_copy env copy_cmd (formatted_content c)) with
  | Some m => caught m tmp1
  | None =>
      let tmp2 := {[tmp_out_name env]} ∪ tmp1 in
      match get_clipboard_command (system env) (xclip_found env) with
      | inl (SysExit code) => (inl (SysExit code), tmp2, [])
      | inl (PyErr m) => caught m tmp2
      | inr clip =>
          let cmd := str_join " " clip ++ " | fabric -p label_and_rate -o "
                     ++ dquote ++ tmp_out_name env ++ dquote in
          match proc_error (run_fabric env cmd) with
          | Some m => caught m tmp2
          | None =>
              match fabric_output env with
              | None => caught "JSONDecodeError" tmp2
              | Some v =>
                  let tmp3 := tmp2 ∖ {[tmp_in_name env]} ∖ {[tmp_out_name env]} in
                  (inr (match v with JNull => None | _ => Some v end), tmp3, [])
              end
          end
      end
  end.

(** ** The extraction/analysis loop of [main] *)

Section MainLoop.
Context {C A : Type}.
(** The [i]-th call of [extract_article_content] and of
    [analyze_with_fabric], as far as the loop sees them. *)
Variable extract : nat -> jv -> option C.
Variable analyze : nat -> C -> option A.

(** The value appended for the article handled at step [i]. *)
Definition article_outcome (i : nat) (a : article) : option A :=
  match extract i (a_url a) with
  | Some c => analyze i c
  | None => None
  end.

(** [for article in all_articles: ... analysis_results.append(...)],
    from step [i] with the list built so far. *)
Fixpoint analysis_loop (i : nat) (arts : list article) (acc : list (option A))
  : list (option A) :=
  match arts with
  | [] => acc
  | a :: rest => analysis_loop (S i) rest (acc ++ [article_outcome i a])
  end.

Definition analysis_results (all_articles : list article) : list (option A) :=
  analysis_loop 0 all_articles [].
End MainLoop.

(** ** Reading keywords *)

(** [str.isspace] on the code points [0..255] a character stands for. *)
Definition py_isspace (c : ascii) : bool :=
  let n := nat_of_ascii c in
  ((9 <=? n)%nat && (n <=? 13)%nat) || ((28 <=? n)%nat && (n <=? 32)%nat)
  || (n =? 133)%nat || (n =? 160)%nat.

Fixpoint lstrip_chars (l : list ascii) : list ascii :=
  match l with
  | [] => []
  | c :: r => if py_isspace c then lstrip_chars r else l
  end.

(** [s.strip()]. *)
Definition py_strip (s : string) : string :=
  string_of_list_ascii (rev (lstrip_chars (rev (lstrip_chars (list_ascii_of_string s))))).

(** [row[0] for row in reader]: [None] when some row is empty (IndexError). *)
Fixpoint first_cells (rows : list (list string)) : option (list string) :=
  match rows with
  | [] => Some []
  | [] :: _ => None
  | (c :: _) :: rest =>
      match first_cells rest with
      | Some cs => Some (c :: cs)
      | None => None
      end
  end.

Section Keywords.
(** [urllib.parse.unquote], a library function. *)
Variable unquote : string -> string.

(** [read_keywords(filename)]: [src] is what opening the file and running
    [csv.reader] over it gives (the rows, or the exception raised); the
    keywords and the lines logged. *)
Definition read_keywords (src : exn + list (list string)) : list string * list string :=
  match src with
  | inl (PyErr m) => ([], ["Error reading keywords file: " ++ m])
  | inl (SysExit _) => ([], ["Error reading keywords file: "])
  | inr rows =>
      match first_cells rows with
      | Some cs => (map unquote cs, [])
      | None => ([], ["Error reading keywords file: list index out of range"])
      end
  end.
End Keywords.

(** [get_api_key()]: [os.getenv('NEWSDATA_API_KEY')], then [sys.exit(1)]
    when it is unset or empty. *)
Definition get_api_key (env_value : option string) : exn + string :=
  match env_value with
  | Some k => if String.eqb k "" then inl (SysExit 1) else inr k
  | None => inl (SysExit 1)
  end.

(** ** [main] *)

(** The machine [main] runs on, apart from the extraction and analysis
    calls: the environment variable, the keyword file, today's date and the
    news API's answer for an API key and a query term. *)
Record main_env := mk_main_env {
  api_key_var : option string;
  keywords_src : exn + list (list string);
  today : string;
  news_api : string -> string -> http_result
}.

(** The [for keyword in keywords] loop: [all_articles.extend(articles)]
    when [articles] is non-empty. *)
Fixpoint collect_articles (env : main_env) (api_key : string) (keywords : list string)
  (acc : list article) : list article :=
  match keywords with
  | [] => acc
  | k :: rest =>
      let q := py_strip k in
      let articles := fst (search_news q (today env) (news_api env api_key q)) in
      collect_articles env api_key rest
        (match articles with [] => acc | _ => (acc ++ articles)%list end)
  end.

Section Main.
Context {C : Type}.
Variable unquote : string -> string.
(** The [i]-th call of [extract_article_content] and of
    [analyze_with_fabric] in [main]: an exception that leaves it, or its
    value. *)
Variable extract_step : nat -> jv -> exn + option C.
Variable analyze_step : nat -> C -> exn + option jv.

(** The [for article in all_articles] loop of [main], with exceptions. *)
Fixpoint main_loop (i : nat) (arts : list article) (acc : list (option jv))
  : exn + list (option jv) :=
  match arts with
  | [] => inr acc
  | a :: rest =>
      match extract_step i (a_url a) with
      | inl e => inl e
      | inr (Some c) =>
          match analyze_step i c with
          | inl e => inl e
          | inr r => main_loop (S i) rest (acc ++ [r])
          end
      | inr None => main_loop (S i) rest (acc ++ [None])
      end
  end.

(** [main()]: how it ends (an exception, or a normal return) and the files
    afterwards. *)
Definition main (env : main_env) (fs : files) : (exn + unit) * files :=
  match get_api_key (api_key_var env) with
  | inl e => (inl e, fs)
  | inr key =>
      match fst (read_keywords unquote (keywords_src env)) with
      | [] => (inr tt, fs)
      | keywords =>
          match collect_articles env key keywords [] with
          | [] => (inr tt, fs)
          | all_articles =>
              let fs1 := save_urls (save_to_csv fs all_articles "grcdata.csv")
                                   all_articles "urls.csv" in
              match main_loop 0 all_articles [] with
              | inl e => (inl e, fs1)
              | inr results => (inr tt, fst (create_rated_csv fs1 all_articles results))
              end
          end
      end
  end.
End Main.

(** ** Inputs used by the properties below *)

(** What [save_to_csv] finds before appending: the existing rows, or the
    header it writes first. *)
Definition prior_rows (fs : files) (filename : string) : list row :=
  match fs !! filename with Some old => old | None => [article_header] end.

(** A search hit whose API item had [title: null]: it has a url but is
    not valid. *)
Definition art_no_headline : article :=
  mk_article (JStr "2024-01-01") (JStr "ransomware") JNull (JStr "Y") (JStr "http://u").

Definition art_ok : article :=
  mk_article (JStr "2024-01-01") (JStr "ransomware") (JStr "X") (JStr "Y") (JStr "http://u").

Definition np_empty : np_article := mk_np_article "" [] [] "" "" None.

Definition np_env_ok (p : np_article) : np_env := mk_np_env None None None None p.

Definition np_dated : np_article :=
  mk_np_article "T" ["k"] ["A"] "S" "B" (Some (mk_datetime 2024 3 5 7 8 9 0 None)).

(** The first exception raised inside the [try] of
    [extract_article_content], if any. *)
Definition fetch_error (env : np_env) : option string :=
  match download_raises env with
  | Some m => Some m
  | None => match parse_raises env with
            | Some m => Some m
            | None => nlp_raises env
            end
  end.

(** The result item has the three keys [search_news] reads. *)
Definition item_has_keys (v : jv) : bool :=
  match v with
  | JObj kvs =>
      match obj_lookup kvs "title", obj_lookup kvs "description", obj_lookup kvs "link" with
      | Some _, Some _, Some _ => true
      | _, _, _ => false
      end
  | _ => false
  end.

(** The Article built from an item that has the three keys. *)
Definition item_article (keyword today : string) (v : jv) : article :=
  match v with
  | JObj kvs =>
      mk_article (JStr today) (JStr keyword) (obj_get kvs "title" JNull)
                 (obj_get kvs "description" JNull) (obj_get kvs "link" JNull)
  | _ => mk_article (JStr today) (JStr keyword) JNull JNull JNull
  end.

(** A result item lacking the [description] key. *)
Definition item_no_description : jv := JObj [("title", JStr "Z"); ("link", JStr "http://v")].

Definition item_ok : jv := JObj [("title", JStr "X"); ("description", JStr "Y"); ("link", JStr "http://u")].

Definition success_response (items : list jv) : http_result :=
  HJson (JObj [("status", JStr "success"); ("results", JArr items)]).

Definition sample_content : content :=
  mk_content "T" [] ["A"] "S" "B" "Not Found" "http://u".

(** macOS, the fabric pipeline exceeds its 15 second timeout. *)
Definition fabric_env_timeout : fabric_env :=
  mk_fabric_env "Darwin" "/tmp/in.txt" "/tmp/out.md" (fun _ _ => PDone) false
                (fun _ => PTimeout) None.

(** Linux with xclip: [subprocess.run(['clip'], ...)] finds no program. *)
Definition fabric_env_linux : fabric_env :=
  mk_fabric_env "Linux" "/tmp/in.txt" "/tmp/out.md"
                (fun cmd _ => if String.eqb cmd "clip" then PNotFound else PDone) true
                (fun _ => PDone) (Some (JObj [])).

(** The fabric command line [analyze_with_fabric] runs. *)
Definition fabric_cmd (env : fabric_env) (clip : list string) : string :=
  str_join " " clip ++ " | fabric -p label_and_rate -o " ++ dquote ++ tmp_out_name env ++ dquote.

Definition fabric_env_mac_ok : fabric_env :=
  mk_fabric_env "Darwin" "/tmp/in.txt" "/tmp/out.md" (fun _ _ => PDone) false
                (fun _ => PDone) (Some (JObj [("rating", JStr "A Tier")])).


(** A run of [main]: key set, one keyword, one search hit. *)
Definition demo_env : main_env :=
  mk_main_env (Some "KEY") (inr [["ransomware"]]) "2024-01-01"
              (fun _ _ => success_response [item_ok]).

(** Extraction and analysis in the demo run: extraction succeeds, the
    analysis gives [None], or [sys.exit(1)] from [get_clipboard_command]. *)
Definition demo_extract : nat -> jv -> exn + option unit := fun _ _ => inr (Some tt).
Definition demo_analyze_none : nat -> unit -> exn + option jv := fun _ _ => inr None.
Definition demo_analyze_exit : nat -> unit -> exn + option jv := fun _ _ => inl (SysExit 1).

(** * Properties *)

(** ** Helper lemmas *)

Lemma dec_digits_nonempty (f : nat) (n : Z) (acc : string) :
  dec_digits (S f) n acc <> "".
Proof.
  revert n acc; induction f as [|f IH]; intros n acc; simpl.
  - destruct (Z.ltb n 10); discriminate.
  - destruct (Z.ltb n 10); [discriminate|]. apply IH.
Qed.

Lemma append_nonempty_l (s t : string) : s <> "" -> s ++ t <> "".
Proof. destruct s; simpl; intros H; [congruence|discriminate]. Qed.

Lemma z_to_dec_nonempty (n : Z) : z_to_dec n <> "".
Proof.
  unfold z_to_dec. destruct (Z.ltb n 0); [discriminate|]. apply dec_digits_nonempty.
Qed.

Lemma py_repr_nonempty (v : jv) : py_repr v <> "".
Proof.
  destruct v as [| [] | n | s | l | kvs]; simpl; try discriminate.
  apply z_to_dec_nonempty.
Qed.

(** A truthy value is written as a non-empty cell. *)
Lemma csv_cell_truthy (v : jv) : truthy v = true -> csv_cell v <> "".
Proof.
  destruct v as [| [] | n | s | l | kvs]; simpl; intros H; try discriminate;
    try apply z_to_dec_nonempty.
  destruct s; simpl in *; discriminate.
Qed.

Lemma valid_has_url (a : article) : article_valid a = true -> has_url a = true.
Proof.
  unfold article_valid, has_url. intros H. repeat (apply andb_prop in H as [? H]). exact H.
Qed.

Lemma valid_fields (a : article) :
  article_valid a = true ->
  Forall (fun v => truthy v = true) [a_date a; a_keyword a; a_headline a; a_description a; a_url a].
Proof.
  unfold article_valid. intros H.
  apply andb_prop in H as [H H5]. apply andb_prop in H as [H H4].
  apply andb_prop in H as [H H3]. apply andb_prop in H as [H1 H2].
  repeat constructor; assumption.
Qed.

Lemma rated_row_none (a : article) (an : option jv) :
  rated_row a an = inr None <-> has_url a = false.
Proof.
  unfold rated_row. destruct (has_url a); [|tauto].
  destruct an as [v|]; [destruct (truthy v); [destruct (analysis_cells v)|]|];
    split; intros H; discriminate.
Qed.

Lemma filter_length_eq {T} (f : T -> bool) (l : list T) :
  length (List.filter f l) = length l <-> forallb f l = true.
Proof.
  induction l as [|x l IH]; simpl; [tauto|].
  pose proof (List.filter_length_le f l).
  destruct (f x); simpl; split; intros H'.
  - apply IH. lia.
  - f_equal. apply IH. exact H'.
  - lia.
  - discriminate.
Qed.

Lemma filter_combine_length (arts : list article) (ans : list (option jv)) :
  length arts = length ans ->
  length (List.filter (fun p => has_url (fst p)) (combine arts ans))
  = length (List.filter has_url arts).
Proof.
  revert ans; induction arts as [|a arts IH]; intros [|an ans] H; simpl in *;
    try discriminate; [reflexivity|].
  destruct (has_url a); simpl; rewrite IH by lia; reflexivity.
Qed.

Lemma valid_rows_filter (arts : list article) :
  valid_rows arts = map article_cells (List.filter article_valid arts).
Proof.
  induction arts as [|a arts IH]; simpl; [reflexivity|].
  destruct (article_valid a); simpl; rewrite IH; reflexivity.
Qed.

Lemma url_rows_filter (arts : list article) :
  url_rows arts = map (fun a => [csv_cell (a_url a)]) (List.filter has_url arts).
Proof.
  induction arts as [|a arts IH]; simpl; [reflexivity|].
  destruct (has_url a); simpl; rewrite IH; reflexivity.
Qed.

Lemma save_to_csv_lookup (fs : files) (arts : list article) (filename : string) :
  save_to_csv fs arts filename !! filename
  = Some (prior_rows fs filename ++ map article_cells (List.filter article_valid arts))%list.
Proof.
  unfold save_to_csv, prior_rows. rewrite valid_rows_filter.
  destruct (fs !! filename) eqn:E.
  - rewrite E. apply lookup_insert_eq.
  - rewrite !lookup_insert_eq. reflexivity.
Qed.

Lemma save_to_csv_delete (fs : files) (arts : list article) (filename : string) :
  delete filename (save_to_csv fs arts filename) = delete filename fs.
Proof.
  unfold save_to_csv. destruct (fs !! filename) eqn:E.
  - apply delete_insert_eq.
  - rewrite delete_insert_eq. apply delete_insert_eq.
Qed.

(** ** The rated-dataset builder *)

(** C1 (counterexample): an invalid Article that has a url is not skipped
    by [create_rated_csv]: one row is written for it. *)
Lemma C1_invalid_article_emitted :
  article_valid art_no_headline = false
  /\ rated_rows [art_no_headline] [None]
     = ([["2024-01-01"; "ransomware"; ""; "Y"; "http://u"; ""; ""; ""; ""; ""; ""]], None).
Proof. split; reflexivity. Qed.

(** C1 (amended): for equal-length inputs on which no row raises, the rows
    written by [create_rated_csv] are, in input order, the rows of exactly
    the pairs whose Article has a non-empty url (whatever its other fields);
    so there are at most as many rows as Articles, as many exactly when every
    Article has a url. *)
Theorem rated_rows_skip_no_url (arts : list article) (ans : list (option jv)) :
  length arts = length ans ->
  snd (rated_rows arts ans) = None ->
  Forall2 (fun p r => rated_row (fst p) (snd p) = inr (Some r))
          (List.filter (fun p => has_url (fst p)) (combine arts ans))
          (fst (rated_rows arts ans))
  /\ length (fst (rated_rows arts ans)) = length (List.filter has_url arts)
  /\ length (fst (rated_rows arts ans)) <= length arts
  /\ (length (fst (rated_rows arts ans)) = length arts <-> forallb has_url arts = true).
Proof.
  intros Hlen Herr.
  assert (HF : Forall2 (fun p r => rated_row (fst p) (snd p) = inr (Some r))
                 (List.filter (fun p => has_url (fst p)) (combine arts ans))
                 (fst (rated_rows arts ans))).
  { revert ans Hlen Herr; induction arts as [|a arts IH]; intros [|an ans] Hlen Herr;
      simpl in *; try discriminate; [constructor|].
    destruct (rated_row a an) as [e|[r|]] eqn:R; simpl in *.
    - discriminate.
    - destruct (has_url a) eqn:U.
      + destruct (rated_rows arts ans) as [rs e] eqn:RR. simpl in *.
        constructor; [exact R|].
        change rs with (fst (rs, e)). rewrite <- RR. apply IH; [lia|]. rewrite RR. exact Herr.
      + apply (rated_row_none a an) in U. congruence.
    - apply rated_row_none in R. rewrite R. apply IH; [lia|exact Herr]. }
  pose proof (Forall2_length _ _ _ HF) as HL.
  rewrite filter_combine_length in HL by exact Hlen.
  split; [exact HF|]. split; [lia|]. split.
  - pose proof (List.filter_length_le has_url arts). lia.
  - rewrite <- HL. apply filter_length_eq.
Qed.

Lemma C1_witness :
  length [art_ok; art_no_headline] = length [None; Some (JObj [("rating", JStr "A")])]
  /\ snd (rated_rows [art_ok; art_no_headline] [None; Some (JObj [("rating", JStr "A")])]) = None
  /\ length (fst (rated_rows [art_ok; art_no_headline] [None; Some (JObj [("rating", JStr "A")])]))
     = length (List.filter has_url [art_ok; art_no_headline]).
Proof.
  assert (H1 : length [art_ok; art_no_headline] = length [None; Some (JObj [("rating", JStr "A")])])
    by reflexivity.
  assert (H2 : snd (rated_rows [art_ok; art_no_headline] [None; Some (JObj [("rating", JStr "A")])]) = None)
    by reflexivity.
  split; [exact H1|]. split; [exact H2|].
  exact (proj1 (proj2 (rated_rows_skip_no_url _ _ H1 H2))).
Defined.

(** C3: a valid Article paired with an absent analysis yields a row made
    of its five (non-empty) Article cells followed by six empty strings,
    and the rest of the join is unaffected. *)
Theorem rated_absent_analysis (a : article) (arts : list article) (ans : list (option jv)) :
  article_valid a = true ->
  rated_rows (a :: arts) (None :: ans)
  = (((article_cells a ++ [""; ""; ""; ""; ""; ""])%list :: fst (rated_rows arts ans)),
     snd (rated_rows arts ans))
  /\ Forall (fun s => s <> "") (article_cells a).
Proof.
  intros H. split.
  - simpl. unfold rated_row. rewrite (valid_has_url a H).
    destruct (rated_rows arts ans); reflexivity.
  - pose proof (valid_fields a H) as HF. unfold article_cells.
    inversion_clear HF as [|? ? H1 HF2]. inversion_clear HF2 as [|? ? H2 HF3].
    inversion_clear HF3 as [|? ? H3 HF4]. inversion_clear HF4 as [|? ? H4 HF5].
    inversion_clear HF5 as [|? ? H5 _].
    repeat constructor; apply csv_cell_truthy; assumption.
Qed.

Lemma C3_witness :
  article_valid art_ok = true
  /\ rated_rows [art_ok] [None]
     = (((article_cells art_ok ++ [""; ""; ""; ""; ""; ""])%list :: fst (rated_rows [] [])),
        snd (rated_rows [] [])).
Proof.
  assert (H : article_valid art_ok = true) by reflexivity.
  split; [exact H|]. exact (proj1 (rated_absent_analysis art_ok [] [] H)).
Defined.

(** ** The article store *)

(** C2 (counterexample): an invalid Article with a url is kept out of the
    article dataset but its url is written to the URL list. *)
Lemma C2_invalid_url_listed :
  article_valid art_no_headline = false
  /\ save_to_csv ∅ [art_no_headline] "grcdata.csv" !! "grcdata.csv" = Some [article_header]
  /\ save_urls ∅ [art_no_headline] "urls.csv" !! "urls.csv" = Some [["http://u"]].
Proof. split; [reflexivity|]. split; vm_compute; reflexivity. Qed.

(** C2 (amended): the article dataset receives exactly the valid Articles
    and the URL list one url per Article with a non-empty url, both in input
    order. *)
Theorem store_filters (fs : files) (arts : list article) (data_file url_file : string) :
  save_to_csv fs arts data_file !! data_file
  = Some (prior_rows fs data_file ++ map article_cells (List.filter article_valid arts))%list
  /\ save_urls fs arts url_file !! url_file
     = Some (map (fun a => [csv_cell (a_url a)]) (List.filter has_url arts)).
Proof.
  split; [apply save_to_csv_lookup|].
  unfold save_urls. rewrite url_rows_filter. apply lookup_insert_eq.
Qed.

(** C7: [save_to_csv] writes the header exactly when the file is absent,
    appends the valid Articles in order, and touches no other file; two
    calls leave the rows of both, after a single header. *)
Theorem save_to_csv_append_only (fs : files) (arts1 arts2 : list article) (filename : string) :
  save_to_csv fs arts1 filename !! filename
  = Some (prior_rows fs filename ++ map article_cells (List.filter article_valid arts1))%list
  /\ delete filename (save_to_csv fs arts1 filename) = delete filename fs
  /\ save_to_csv (save_to_csv fs arts1 filename) arts2 filename !! filename
     = Some (prior_rows fs filename ++ map article_cells (List.filter article_valid arts1)
             ++ map article_cells (List.filter article_valid arts2))%list.
Proof.
  split; [apply save_to_csv_lookup|]. split; [apply save_to_csv_delete|].
  rewrite save_to_csv_lookup. unfold prior_rows at 1.
  rewrite save_to_csv_lookup. rewrite app_assoc. reflexivity.
Qed.

(** C9: [save_urls] replaces the file: its content depends only on the
    Articles, and a second identical call changes nothing. *)
Theorem save_urls_idempotent (fs : files) (arts : list article) (filename : string) :
  save_urls (save_urls fs arts filename) arts filename = save_urls fs arts filename
  /\ save_urls fs arts filename !! filename = Some (url_rows arts).
Proof.
  unfold save_urls. split.
  - apply insert_insert_eq.
  - apply lookup_insert_eq.
Qed.

(** ** The content extractor *)

Lemma pad2_shape (n : Z) : exists x y, pad 2 n = String x (String y "").
Proof. simpl. eauto. Qed.

Lemma pad4_shape (n : Z) :
  exists x y z w, pad 4 n = String x (String y (String z (String w ""))).
Proof. simpl. eauto. Qed.

(** [isoformat] puts the date and time separators at the ISO-8601
    positions [YYYY-MM-DDTHH:MM:SS]. *)
Lemma isoformat_shape (d : datetime) :
  String.get 4 (isoformat d) = Some "-"%char
  /\ String.get 7 (isoformat d) = Some "-"%char
  /\ String.get 10 (isoformat d) = Some "T"%char
  /\ String.get 13 (isoformat d) = Some ":"%char
  /\ String.get 16 (isoformat d) = Some ":"%char
  /\ 19 <= String.length (isoformat d).
Proof.
  unfold isoformat.
  destruct (pad4_shape (dt_year d)) as (y1 & y2 & y3 & y4 & ->).
  destruct (pad2_shape (dt_month d)) as (m1 & m2 & ->).
  destruct (pad2_shape (dt_day d)) as (e1 & e2 & ->).
  destruct (pad2_shape (dt_hour d)) as (h1 & h2 & ->).
  destruct (pad2_shape (dt_minute d)) as (i1 & i2 & ->).
  destruct (pad2_shape (dt_second d)) as (s1 & s2 & ->).
  simpl. repeat split. lia.
Qed.

(** C4 (counterexample): when the page yields no authors, the [authors]
    field is [["Not Found"]], not the empty sequence. *)
Lemma C4_authors_default_not_empty :
  extract_article_content (np_env_ok np_empty) "http://u"
  = (inr (Some (mk_content "Not Found" [] ["Not Found"] "Not Found" "Not Found" "Not Found" "http://u")), [])
  /\ ["Not Found"] <> @nil string.
Proof. split; [reflexivity|discriminate]. Qed.

(** C4 (amended): when extraction succeeds, the empty scalar fields are
    ["Not Found"], empty keywords stay the empty list, empty authors become
    [["Not Found"]], and a publish date is written by [isoformat] (ISO-8601
    separators), ["Not Found"] otherwise. *)
Theorem extract_defaults (env : np_env) (url : string) :
  ctor_raises env = None -> download_raises env = None ->
  parse_raises env = None -> nlp_raises env = None ->
  let p := np_result env in
  exists c, extract_article_content env url = (inr (Some c), [])
  /\ c_title c = (if String.eqb (np_title p) "" then "Not Found" else np_title p)
  /\ c_summary c = (if String.eqb (np_summary p) "" then "Not Found" else np_summary p)
  /\ c_text c = (if String.eqb (np_text p) "" then "Not Found" else np_text p)
  /\ c_keywords c = np_keywords p
  /\ c_authors c = (match np_authors p with [] => ["Not Found"] | au => au end)
  /\ c_url c = url
  /\ c_publish_date c = match np_publish_date p with
                        | Some d => isoformat d
                        | None => "Not Found"
                        end
  /\ (forall d, np_publish_date p = Some d ->
        String.get 4 (c_publish_date c) = Some "-"%char
        /\ String.get 7 (c_publish_date c) = Some "-"%char
        /\ String.get 10 (c_publish_date c) = Some "T"%char
        /\ String.get 13 (c_publish_date c) = Some ":"%char
        /\ String.get 16 (c_publish_date c) = Some ":"%char).
Proof.
  intros H1 H2 H3 H4 p. unfold extract_article_content.
  rewrite H1, H2, H3, H4.
  exists (content_of url p). split; [reflexivity|].
  unfold content_of, or_not_found; simpl.
  do 3 (split; [reflexivity|]).
  split; [destruct (np_keywords p); reflexivity|].
  do 3 (split; [reflexivity|]).
  intros d Hd. rewrite Hd.
  destruct (isoformat_shape d) as (? & ? & ? & ? & ? & _). auto.
Qed.

Lemma C4_witness :
  exists c, extract_article_content (np_env_ok np_dated) "http://u" = (inr (Some c), [])
  /\ c_publish_date c = "2024-03-05T07:08:09".
Proof.
  destruct (extract_defaults (np_env_ok np_dated) "http://u" eq_refl eq_refl eq_refl eq_refl)
    as (c & Hc & _ & _ & _ & _ & _ & _ & Hd & _).
  exists c. split; [exact Hc|]. rewrite Hd. reflexivity.
Defined.

(** C6: the constructor [Article(url, fetch_images=False)] runs before
    the [try], so whatever it raises (a [TypeError] for a url of [None], a
    [ValueError] for a malformed url) leaves [extract_article_content]: no
    [None] is returned and nothing is logged. *)
Theorem C6_ctor_exception_escapes (env : np_env) (url m : string) :
  ctor_raises env = Some m ->
  extract_article_content env url = (inl (PyErr m), []).
Proof. intros H. unfold extract_article_content. rewrite H. reflexivity. Qed.

Lemma C6_witness :
  extract_article_content (mk_np_env (Some "ValueError: Invalid IPv6 URL") None None None np_empty) "http://[::1"
  = (inl (PyErr "ValueError: Invalid IPv6 URL"), []).
Proof. apply C6_ctor_exception_escapes. reflexivity. Defined.

(** X19: once the constructor has returned, every exception raised by
    downloading, parsing or the NLP step is caught: [None] is returned and
    one line naming the URL and the cause is logged. *)
Theorem extract_catches_fetch_errors (env : np_env) (url : string) :
  (forall e, fst (extract_article_content env url) = inl e -> ctor_raises env <> None)
  /\ (ctor_raises env = None -> forall m, fetch_error env = Some m ->
        extract_article_content env url
        = (inr None, ["Failed to process article from " ++ url ++ ": " ++ m])).
Proof.
  unfold extract_article_content, fetch_error. split.
  - intros e. destruct (ctor_raises env); [congruence|].
    destruct (download_raises env); [discriminate|].
    destruct (parse_raises env); [discriminate|].
    destruct (nlp_raises env); discriminate.
  - intros -> m.
    destruct (download_raises env); [intros [= ->]; reflexivity|].
    destruct (parse_raises env); [intros [= ->]; reflexivity|].
    destruct (nlp_raises env); [intros [= ->]; reflexivity|discriminate].
Qed.

Lemma X19_witness :
  fetch_error (mk_np_env None (Some "ConnectionError") None None np_empty) = Some "ConnectionError"
  /\ extract_article_content (mk_np_env None (Some "ConnectionError") None None np_empty) "http://u"
     = (inr None, ["Failed to process article from http://u: ConnectionError"]).
Proof.
  split; [reflexivity|].
  exact (proj2 (extract_catches_fetch_errors (mk_np_env None (Some "ConnectionError") None None np_empty)
                  "http://u") eq_refl "ConnectionError" eq_refl).
Defined.

(** ** The search client *)

Lemma search_items_all (keyword today : string) (items : list jv) :
  (forallb item_has_keys items = true ->
   search_items keyword today items = inr (map (item_article keyword today) items))
  /\ (forallb item_has_keys items = false ->
      exists m, search_items keyword today items = inl (PyErr m)).
Proof.
  induction items as [|it items [IHt IHf]]; simpl; [split; [reflexivity|discriminate]|].
  assert (Hit : item_has_keys it = true ->
                search_item keyword today it = inr (item_article keyword today it)).
  { destruct it as [| | | | |kvs]; simpl; try discriminate.
    unfold search_item, py_getitem, obj_get.
    destruct (obj_lookup kvs "title"), (obj_lookup kvs "description"), (obj_lookup kvs "link");
      simpl; try discriminate; reflexivity. }
  assert (Hbad : item_has_keys it = false -> exists m, search_item keyword today it = inl (PyErr m)).
  { destruct it as [| | | | |kvs]; simpl; intros; try (eexists; reflexivity).
    unfold search_item, py_getitem.
    destruct (obj_lookup kvs "title"), (obj_lookup kvs "description"), (obj_lookup kvs "link");
      simpl; try discriminate; eexists; reflexivity. }
  destruct (item_has_keys it) eqn:H; simpl; split; intros Hall.
  - rewrite Hit by reflexivity. rewrite IHt by exact Hall. reflexivity.
  - rewrite Hit by reflexivity. destruct (IHf Hall) as [m ->]. eauto.
  - discriminate.
  - destruct (Hbad eq_refl) as [m ->]. eauto.
Qed.

(** C8 (counterexample): one item without [description] makes [search_news]
    return nothing, dropping the well-formed item of the same response. *)
Lemma C8_missing_key_drops_response :
  fst (search_news "ransomware" "2024-01-01" (success_response [item_ok; item_no_description])) = []
  /\ fst (search_news "ransomware" "2024-01-01" (success_response [item_ok])) = [art_ok].
Proof. split; reflexivity. Qed.

(** C8 (amended): on a success response (any JSON object whose [status]
    is ["success"] and whose [results] is an array, whatever other keys it
    has), items that carry the three keys are all mapped, in order, to
    Articles whatever their values (null or empty values included); if any
    item lacks one of the keys (or is not an object), the whole call returns
    the empty list. *)
Theorem search_news_items (keyword today : string) (kvs : list (string * jv)) (items : list jv) :
  obj_lookup kvs "status" = Some (JStr "success") ->
  obj_lookup kvs "results" = Some (JArr items) ->
  fst (search_news keyword today (HJson (JObj kvs)))
  = if forallb item_has_keys items then map (item_article keyword today) items else [].
Proof.
  intros Hs Hr. unfold search_news, py_getitem.
  rewrite Hs, Hr. simpl.
  destruct (search_items_all keyword today items) as [Ht Hf].
  destruct (forallb item_has_keys items).
  - rewrite Ht by reflexivity. reflexivity.
  - destruct (Hf eq_refl) as [m ->]. reflexivity.
Qed.

(** A response of NewsData's full shape: status, totalResults, results,
    nextPage, with one item whose link is null. *)
Lemma C8_witness :
  fst (search_news "ransomware" "2024-01-01"
         (HJson (JObj [("status", JStr "success"); ("totalResults", JNum 2);
                       ("results", JArr [item_ok; JObj [("title", JStr "t"); ("description", JNull); ("link", JNull)]]);
                       ("nextPage", JStr "abc")])))
  = if forallb item_has_keys [item_ok; JObj [("title", JStr "t"); ("description", JNull); ("link", JNull)]]
    then map (item_article "ransomware" "2024-01-01")
             [item_ok; JObj [("title", JStr "t"); ("description", JNull); ("link", JNull)]]
    else [].
Proof. apply search_news_items; reflexivity. Defined.

(** ** The analysis client *)

(** When every step succeeds, both temporary files are removed. *)
Lemma analyze_success_removes_tmp (env : fabric_env) (c : content) (tmp : gset string) (v : jv) :
  String.eqb (system env) "Darwin" = true ->
  run_copy env "pbcopy" (formatted_content c) = PDone ->
  (forall cmd, run_fabric env cmd = PDone) ->
  fabric_output env = Some v ->
  snd (fst (analyze_with_fabric env c tmp))
  = ({[tmp_out_name env]} ∪ ({[tmp_in_name env]} ∪ tmp)) ∖ {[tmp_in_name env]} ∖ {[tmp_out_name env]}.
Proof.
  intros Hs Hc Hf Ho. unfold analyze_with_fabric. rewrite Hs, Hc. simpl.
  apply String.eqb_eq in Hs. unfold get_clipboard_command. rewrite Hs. simpl.
  rewrite Hf, Ho. reflexivity.
Qed.

(** C5: on a fabric timeout, and on Linux where the copy command is not
    found, [analyze_with_fabric] returns [None] with its temporary files
    still present. *)
Theorem C5_tmp_files_left_on_failure :
  fst (fst (analyze_with_fabric fabric_env_timeout sample_content ∅)) = inr None
  /\ "/tmp/in.txt" ∈ snd (fst (analyze_with_fabric fabric_env_timeout sample_content ∅))
  /\ "/tmp/out.md" ∈ snd (fst (analyze_with_fabric fabric_env_timeout sample_content ∅))
  /\ fst (fst (analyze_with_fabric fabric_env_linux sample_content ∅)) = inr None
  /\ "/tmp/in.txt" ∈ snd (fst (analyze_with_fabric fabric_env_linux sample_content ∅)).
Proof.
  split; [reflexivity|]. split; [simpl; set_solver|]. split; [simpl; set_solver|].
  split; [reflexivity|]. simpl. set_solver.
Qed.

(** ** The extraction/analysis loop of [main] *)

Lemma analysis_loop_acc {C A : Type} (extract : nat -> jv -> option C) (analyze : nat -> C -> option A)
      (i : nat) (arts : list article) (acc : list (option A)) :
  analysis_loop extract analyze i arts acc = (acc ++ analysis_loop extract analyze i arts [])%list.
Proof.
  revert i acc; induction arts as [|a arts IH]; intros i acc; simpl.
  - rewrite app_nil_r. reflexivity.
  - rewrite IH, (IH (S i) [article_outcome extract analyze i a]).
    rewrite app_assoc. reflexivity.
Qed.

Lemma analysis_loop_cons {C A : Type} (extract : nat -> jv -> option C) (analyze : nat -> C -> option A)
      (i : nat) (a : article) (arts : list article) :
  analysis_loop extract analyze i (a :: arts) []
  = article_outcome extract analyze i a :: analysis_loop extract analyze (S i) arts [].
Proof. simpl. rewrite analysis_loop_acc. reflexivity. Qed.

(** C10: after the loop, [analysis_results] is as long as [all_articles]
    and its [k]-th entry is the outcome of extracting and analysing the
    [k]-th Article ([None] when extraction or analysis gave [None]). *)
Theorem analysis_results_aligned {C A : Type}
      (extract : nat -> jv -> option C) (analyze : nat -> C -> option A)
      (all_articles : list article) :
  length (analysis_results extract analyze all_articles) = length all_articles
  /\ (forall (k : nat) (a : article), all_articles !! k = Some a ->
        analysis_results extract analyze all_articles !! k
        = Some (match extract k (a_url a) with
                | Some c => analyze k c
                | None => None
                end)).
Proof.
  unfold analysis_results.
  assert (H : forall i (arts : list article),
             length (analysis_loop extract analyze i arts []) = length arts
             /\ forall k a, arts !! k = Some a ->
                analysis_loop extract analyze i arts [] !! k
                = Some (article_outcome extract analyze (i + k) a)).
  { intros i arts; revert i; induction arts as [|b arts IH]; intros i.
    - split; [reflexivity|]. intros k a Hk. discriminate.
    - rewrite analysis_loop_cons. destruct (IH (S i)) as [IHl IHk]. split.
      + simpl. rewrite IHl. reflexivity.
      + intros [|k] a Hk; simpl in Hk.
        * injection Hk as ->. simpl. rewrite Nat.add_0_r. reflexivity.
        * simpl. rewrite (IHk k a Hk). do 2 f_equal. lia. }
  destruct (H 0 all_articles) as [Hl Hk]. split; [exact Hl|].
  intros k a Ha. rewrite (Hk k a Ha). reflexivity.
Qed.

(** * Further properties of the code *)

(** ** [search_news] *)

Lemma search_items_length (keyword today : string) (items : list jv) (l : list article) :
  search_items keyword today items = inr l -> length l = length items.
Proof.
  revert l; induction items as [|it items IH]; intros l H; simpl in H.
  - injection H as <-. reflexivity.
  - destruct (search_item keyword today it); [discriminate|].
    destruct (search_items keyword today items) as [|l'] eqn:E; [discriminate|].
    injection H as <-. simpl. rewrite (IH l' eq_refl). reflexivity.
Qed.

Lemma search_items_stamped (keyword today : string) (items : list jv) (l : list article) :
  search_items keyword today items = inr l ->
  Forall (fun a => a_date a = JStr today /\ a_keyword a = JStr keyword) l.
Proof.
  revert l; induction items as [|it items IH]; intros l H; simpl in H.
  - injection H as <-. constructor.
  - destruct (search_item keyword today it) as [|a] eqn:Ei; [discriminate|].
    destruct (search_items keyword today items) as [|l'] eqn:E; [discriminate|].
    injection H as <-. constructor; [|exact (IH l' eq_refl)].
    unfold search_item in Ei.
    destruct (py_getitem it "title"); [discriminate|].
    destruct (py_getitem it "description"); [discriminate|].
    destruct (py_getitem it "link"); [discriminate|].
    injection Ei as <-. split; reflexivity.
Qed.

Lemma search_news_status_string (keyword today : string) (kvs : list (string * jv)) (s : string) :
  obj_lookup kvs "status" = Some (JStr s) -> s <> "success" ->
  fst (search_news keyword today (HJson (JObj kvs))) = [].
Proof.
  intros Hs Hne. unfold search_news, py_getitem. rewrite Hs.
  do 7 (destruct s as [|c s]; [reflexivity|];
        destruct c as [[] [] [] [] [] [] [] []]; try reflexivity).
  destruct s; [exfalso; apply Hne; reflexivity|reflexivity].
Qed.

(** A non-empty result can only come from a success response whose
    [results] is an array; it is then that array's items mapped in order. *)
Lemma search_news_nonempty_source (keyword today : string) (resp : http_result) :
  fst (search_news keyword today resp) <> [] ->
  exists kvs items,
    resp = HJson (JObj kvs)
    /\ obj_lookup kvs "status" = Some (JStr "success")
    /\ obj_lookup kvs "results" = Some (JArr items)
    /\ search_items keyword today items = inr (fst (search_news keyword today resp)).
Proof.
  intros Hne.
  destruct resp as [m|data]; [simpl in Hne; congruence|].
  destruct data as [| | | | |kvs]; try (simpl in Hne; congruence).
  unfold search_news, py_getitem in *.
  destruct (obj_lookup kvs "status") as [st|] eqn:Hst; [|simpl in Hne; congruence].
  destruct st as [| b | n | s | l | o]; try (simpl in Hne; congruence).
  destruct (string_dec s "success") as [->|Hs].
  2:{ exfalso. apply Hne.
       pose proof (search_news_status_string keyword today kvs s Hst Hs) as E.
       unfold search_news, py_getitem in E. rewrite Hst in E. exact E. }
  simpl in Hne |- *.
  destruct (obj_lookup kvs "results") as [res|] eqn:Hr; [|simpl in Hne; congruence].
  destruct res as [| b | n | s | items | o]; simpl in Hne |- *; try congruence.
  - destruct (list_ascii_of_string s); simpl in Hne; congruence.
  - destruct (search_items keyword today items) as [[m|c]|l] eqn:Es;
      simpl in Hne; try congruence.
    exists kvs, items. repeat split; assumption.
  - destruct o; simpl in Hne; congruence.
Qed.

(** X1: every Article [search_news] returns carries today's date and the
    query term it was called with. *)
Theorem search_news_stamped (keyword today : string) (resp : http_result) :
  Forall (fun a => a_date a = JStr today /\ a_keyword a = JStr keyword)
         (fst (search_news keyword today resp)).
Proof.
  destruct (fst (search_news keyword today resp)) as [|x l] eqn:E; [constructor|].
  assert (Hne : fst (search_news keyword today resp) <> []) by (rewrite E; discriminate).
  destruct (search_news_nonempty_source keyword today resp Hne) as (kvs & items & _ & _ & _ & Hs).
  rewrite E in Hs. exact (search_items_stamped keyword today items _ Hs).
Qed.

(** X2: [search_news] returns a non-empty list only for a JSON object
    whose [status] is ["success"] and whose [results] is an array; the list
    then has one Article per item of that array. *)
Theorem search_news_nonempty_success (keyword today : string) (resp : http_result) :
  fst (search_news keyword today resp) <> [] ->
  exists kvs items,
    resp = HJson (JObj kvs)
    /\ obj_lookup kvs "status" = Some (JStr "success")
    /\ obj_lookup kvs "results" = Some (JArr items)
    /\ length (fst (search_news keyword today resp)) = length items.
Proof.
  intros Hne.
  destruct (search_news_nonempty_source keyword today resp Hne) as (kvs & items & H1 & H2 & H3 & H4).
  exists kvs, items. repeat split; try assumption.
  exact (search_items_length keyword today items _ H4).
Qed.

Lemma X2_witness :
  fst (search_news "ransomware" "2024-01-01" (success_response [item_ok])) <> []
  /\ exists kvs items,
    success_response [item_ok] = HJson (JObj kvs)
    /\ obj_lookup kvs "status" = Some (JStr "success")
    /\ obj_lookup kvs "results" = Some (JArr items)
    /\ length (fst (search_news "ransomware" "2024-01-01" (success_response [item_ok]))) = length items.
Proof.
  assert (H : fst (search_news "ransomware" "2024-01-01" (success_response [item_ok])) <> [])
    by discriminate.
  split; [exact H|]. exact (search_news_nonempty_success _ _ _ H).
Defined.

Lemma collect_articles_acc (env : main_env) (key : string) (kws : list string) (acc : list article) :
  collect_articles env key kws acc
  = (acc ++ flat_map (fun k => fst (search_news (py_strip k) (today env) (news_api env key (py_strip k)))) kws)%list.
Proof.
  revert acc; induction kws as [|k kws IH]; intros acc; simpl.
  - rewrite app_nil_r. reflexivity.
  - rewrite IH. destruct (fst (search_news (py_strip k) (today env) (news_api env key (py_strip k)))).
    + reflexivity.
    + rewrite app_assoc. reflexivity.
Qed.

(** X3: [main]'s article list is the concatenation, in keyword order, of the
    lists [search_news] returns for the stripped keywords; each Article
    carries today's date and the stripped form of a keyword of the list. *)
Theorem collect_articles_concat (env : main_env) (key : string) (kws : list string) :
  collect_articles env key kws []
  = flat_map (fun k => fst (search_news (py_strip k) (today env) (news_api env key (py_strip k)))) kws
  /\ Forall (fun a => a_date a = JStr (today env) /\ exists k, In k kws /\ a_keyword a = JStr (py_strip k))
            (collect_articles env key kws []).
Proof.
  rewrite collect_articles_acc. simpl. split; [reflexivity|].
  apply List.Forall_forall. intros a Ha. apply in_flat_map in Ha as (k & Hk & Ha).
  pose proof (search_news_stamped (py_strip k) (today env) (news_api env key (py_strip k))) as HS.
  rewrite List.Forall_forall in HS. destruct (HS a Ha) as [Hd Hkw].
  split; [exact Hd|]. exists k. split; assumption.
Qed.

(** ** [create_rated_csv] *)

Lemma py_join_strings (sep : string) (l : list string) :
  py_join sep (JArr (map JStr l)) = inr (str_join sep l).
Proof.
  unfold py_join. simpl. rewrite map_map. simpl.
  assert (E1 : forallb (fun o : option string => match o with Some _ => true | None => false end)
                 (map (fun x : string => Some x) l) = true).
  { induction l as [|x l IH]; simpl; [reflexivity|exact IH]. }
  rewrite E1, map_map. simpl. rewrite map_id. reflexivity.
Qed.

(** X4: for an Article with a url and an analysis dict whose two
    explanation entries are lists of strings (or absent), the row holds the
    Article cells, the three scalar entries, the explanations joined with
    ["; "], and [str] of the quality score. *)
Theorem rated_row_joins_explanations (a : article) (kvs : list (string * jv)) (l1 l2 : list string) :
  has_url a = true ->
  obj_get kvs "rating-explanation" (JArr []) = JArr (map JStr l1) ->
  obj_get kvs "quality-score-explanation" (JArr []) = JArr (map JStr l2) ->
  rated_row a (Some (JObj kvs))
  = inr (Some (article_cells a ++
               [csv_cell (obj_get kvs "one-sentence-summary" (JStr ""));
                csv_cell (obj_get kvs "labels" (JStr ""));
                csv_cell (obj_get kvs "rating" (JStr ""));
                str_join "; " l1;
                py_str (obj_get kvs "quality-score" (JStr ""));
                str_join "; " l2])%list).
Proof.
  intros Hu H1 H2. unfold rated_row. rewrite Hu.
  destruct kvs as [|kv kvs'] eqn:Ek.
  - simpl in H1, H2. destruct l1; [|discriminate]. destruct l2; [|discriminate]. reflexivity.
  - rewrite <- Ek in *. simpl. unfold analysis_cells.
    rewrite H1, py_join_strings, H2, py_join_strings. rewrite Ek. reflexivity.
Qed.

Lemma X4_witness :
  rated_row art_ok (Some (JObj [("rating", JStr "A Tier"); ("rating-explanation", JArr [JStr "a"; JStr "b"])]))
  = inr (Some ["2024-01-01"; "ransomware"; "X"; "Y"; "http://u"; ""; ""; "A Tier"; "a; b"; ""; ""]).
Proof.
  exact (rated_row_joins_explanations art_ok
           [("rating", JStr "A Tier"); ("rating-explanation", JArr [JStr "a"; JStr "b"])]
           ["a"; "b"] [] eq_refl eq_refl eq_refl).
Defined.

(** X5: a falsy analysis value ([{}], [[]], [""], [0], [false]) is handled
    like an absent one. *)
Theorem rated_row_falsy_analysis (a : article) (v : jv) :
  truthy v = false -> rated_row a (Some v) = rated_row a None.
Proof. intros H. unfold rated_row. rewrite H. reflexivity. Qed.

Lemma X5_witness :
  truthy (JObj []) = false
  /\ rated_row art_ok (Some (JObj [])) = rated_row art_ok None.
Proof.
  assert (H : truthy (JObj []) = false) by reflexivity.
  split; [exact H|]. exact (rated_row_falsy_analysis art_ok (JObj []) H).
Defined.

(** X6: [zip] pairs only the common prefix: Articles without an analysis
    entry, and analysis entries without an Article, are ignored. *)
Theorem rated_rows_zip_truncates (arts : list article) (ans : list (option jv)) :
  rated_rows arts ans = rated_rows (firstn (length ans) arts) (firstn (length arts) ans).
Proof.
  revert ans; induction arts as [|a arts IH]; intros [|an ans]; simpl; try reflexivity.
  rewrite (IH ans). reflexivity.
Qed.

(** X7: when a row raises, the rows already written stay and no later pair
    is written. *)
Theorem rated_rows_exception_keeps_prefix
    (arts1 arts2 : list article) (ans1 ans2 : list (option jv)) (a : article) (an : option jv) (e : exn) :
  length arts1 = length ans1 ->
  snd (rated_rows arts1 ans1) = None ->
  rated_row a an = inl e ->
  rated_rows (arts1 ++ a :: arts2) (ans1 ++ an :: ans2) = (fst (rated_rows arts1 ans1), Some e).
Proof.
  revert ans1; induction arts1 as [|b arts1 IH]; intros [|bn ans1] Hl Hn He;
    simpl in *; try discriminate.
  - rewrite He. reflexivity.
  - destruct (rated_row b bn) as [e'|[r|]]; [discriminate| |].
    + assert (Hn' : snd (rated_rows arts1 ans1) = None)
        by (destruct (rated_rows arts1 ans1); exact Hn).
      rewrite (IH ans1 ltac:(lia) Hn' He). destruct (rated_rows arts1 ans1); reflexivity.
    + apply IH; [lia|exact Hn|exact He].
Qed.

Lemma X7_witness :
  rated_rows [art_ok; art_ok; art_ok] [None; Some (JArr [JStr "not a dict"]); None]
  = (fst (rated_rows [art_ok] [None]), Some (PyErr "AttributeError: object has no attribute 'get'")).
Proof.
  exact (rated_rows_exception_keeps_prefix [art_ok] [art_ok] [None] [None] art_ok
           (Some (JArr [JStr "not a dict"]))
           (PyErr "AttributeError: object has no attribute 'get'") eq_refl eq_refl eq_refl).
Defined.





(** ** [extract_article_content] *)

Lemma or_not_found_nonempty (s : string) : or_not_found s <> "".
Proof.
  unfold or_not_found. destruct (String.eqb s "") eqn:E; [discriminate|].
  apply String.eqb_neq in E. exact E.
Qed.

(** X9: a successful extraction has non-empty title, summary, text and
    publish_date strings and a non-empty authors list. *)
Theorem extract_fields_nonempty (env : np_env) (url : string) (c : content) (log : list string) :
  extract_article_content env url = (inr (Some c), log) ->
  c_title c <> "" /\ c_summary c <> "" /\ c_text c <> "" /\ c_publish_date c <> ""
  /\ c_authors c <> [].
Proof.
  unfold extract_article_content.
  destruct (ctor_raises env); [discriminate|].
  destruct (download_raises env); [discriminate|].
  destruct (parse_raises env); [discriminate|].
  destruct (nlp_raises env); [discriminate|].
  intros H. injection H as <- _. unfold content_of; simpl.
  split; [apply or_not_found_nonempty|]. split; [apply or_not_found_nonempty|].
  split; [apply or_not_found_nonempty|]. split.
  - destruct (np_publish_date (np_result env)) as [d|]; [|discriminate].
    destruct (isoformat_shape d) as (_ & _ & _ & _ & _ & Hl).
    intros E. rewrite E in Hl. simpl in Hl. lia.
  - destruct (np_authors (np_result env)); discriminate.
Qed.

Lemma X9_witness :
  exists c, extract_article_content (np_env_ok np_empty) "http://u" = (inr (Some c), [])
  /\ c_title c <> "" /\ c_authors c <> [].
Proof.
  exists (content_of "http://u" np_empty).
  assert (H : extract_article_content (np_env_ok np_empty) "http://u"
              = (inr (Some (content_of "http://u" np_empty)), [])) by reflexivity.
  destruct (extract_fields_nonempty _ _ _ _ H) as (Ht & _ & _ & _ & Ha).
  split; [exact H|]. split; [exact Ht|exact Ha].
Defined.

(** ** [analyze_with_fabric] and [get_clipboard_command] *)
(** X10: when the copy, the clipboard lookup, the fabric run and the JSON
    parse all succeed, [analyze_with_fabric] returns the parsed value
    ([None] for JSON null), logs nothing, and leaves the set of temporary
    files as it found it. *)
Theorem analyze_with_fabric_success (env : fabric_env) (c : content) (tmp : gset string)
    (clip : list string) (v : jv) :
  run_copy env (if String.eqb (system env) "Darwin" then "pbcopy" else "clip") (formatted_content c) = PDone ->
  get_clipboard_command (system env) (xclip_found env) = inr clip ->
  run_fabric env (fabric_cmd env clip) = PDone ->
  fabric_output env = Some v ->
  tmp_in_name env ∉ tmp -> tmp_out_name env ∉ tmp ->
  analyze_with_fabric env c tmp = (inr (match v with JNull => None | _ => Some v end), tmp, []).
Proof.
  intros Hc Hg Hf Ho Hi Hout. unfold analyze_with_fabric. rewrite Hc. simpl.
  rewrite Hg. unfold fabric_cmd in Hf. rewrite Hf, Ho.
  f_equal. f_equal. apply set_eq. intros x. set_solver.
Qed.
Lemma X10_witness :
  analyze_with_fabric fabric_env_mac_ok sample_content ∅
  = (inr (Some (JObj [("rating", JStr "A Tier")])), ∅, []).
Proof.
  apply (analyze_with_fabric_success fabric_env_mac_ok sample_content ∅ ["pbpaste"]
           (JObj [("rating", JStr "A Tier")]));
    try reflexivity; set_solver.
Defined.



(** ** [read_keywords] *)

Lemma first_cells_empty_row (rows : list (list string)) :
  In [] rows -> first_cells rows = None.
Proof.
  induction rows as [|r rows IH]; simpl; [tauto|].
  intros [->|H]; [reflexivity|]. destruct r as [|c r]; [reflexivity|].
  rewrite (IH H). reflexivity.
Qed.

(** X13: one empty row (a blank line) in the keyword file makes
    [read_keywords] return no keyword at all: [row[0]] raises IndexError,
    which is caught and logged. *)
Theorem read_keywords_blank_line (unquote : string -> string) (rows : list (list string)) :
  In [] rows ->
  read_keywords unquote (inr rows) = ([], ["Error reading keywords file: list index out of range"]).
Proof. intros H. unfold read_keywords. rewrite (first_cells_empty_row rows H). reflexivity. Qed.

Lemma X13_witness :
  read_keywords (fun s => s) (inr [["ransomware"]; []; ["phishing"]])
  = ([], ["Error reading keywords file: list index out of range"]).
Proof. apply read_keywords_blank_line. simpl. tauto. Defined.

(** X14: when every row is non-empty, the keywords are the decoded first
    cells of the rows, in file order; other cells are ignored. *)
Theorem read_keywords_first_cells (unquote : string -> string) (rows : list (list string)) :
  Forall (fun r => r <> []) rows ->
  read_keywords unquote (inr rows) = (map (fun r => unquote (hd "" r)) rows, []).
Proof.
  intros H. unfold read_keywords.
  assert (E : first_cells rows = Some (map (hd "") rows)).
  { induction H as [|r rows Hr _ IH]; [reflexivity|].
    destruct r as [|c r]; [congruence|]. simpl. rewrite IH. reflexivity. }
  rewrite E, map_map. reflexivity.
Qed.

Lemma X14_witness :
  read_keywords (fun s => s) (inr [["ransomware"; "extra"]; ["phishing"]])
  = (["ransomware"; "phishing"], []).
Proof. apply read_keywords_first_cells. repeat constructor; discriminate. Defined.

(** ** [main] *)

(** X15: without a non-empty [NEWSDATA_API_KEY], [main] ends with
    [sys.exit(1)] before touching any file. *)
Theorem main_no_api_key {C : Type} (unquote : string -> string)
    (extract_step : nat -> jv -> exn + option C) (analyze_step : nat -> C -> exn + option jv)
    (env : main_env) (fs : files) :
  api_key_var env = None \/ api_key_var env = Some "" ->
  main unquote extract_step analyze_step env fs = (inl (SysExit 1), fs).
Proof. unfold main, get_api_key. intros [-> | ->]; reflexivity. Qed.

Lemma X15_witness :
  main (fun s => s) demo_extract demo_analyze_none
       (mk_main_env None (inr [["ransomware"]]) "2024-01-01" (fun _ _ => HFail "unused")) ∅
  = (inl (SysExit 1), ∅).
Proof. apply main_no_api_key. left. reflexivity. Defined.

(** X16: when no keyword yields an Article (no keyword read, or every
    search empty or failed), [main] returns normally without writing any
    file. *)
Theorem main_no_articles {C : Type} (unquote : string -> string)
    (extract_step : nat -> jv -> exn + option C) (analyze_step : nat -> C -> exn + option jv)
    (env : main_env) (fs : files) (key : string) :
  get_api_key (api_key_var env) = inr key ->
  collect_articles env key (fst (read_keywords unquote (keywords_src env))) [] = [] ->
  main unquote extract_step analyze_step env fs = (inr tt, fs).
Proof.
  intros Hk Hc. unfold main. rewrite Hk.
  destruct (fst (read_keywords unquote (keywords_src env))) as [|k ks]; [reflexivity|].
  rewrite Hc. reflexivity.
Qed.

Lemma X16_witness :
  main (fun s => s) demo_extract demo_analyze_none
       (mk_main_env (Some "KEY") (inr [["ransomware"]]) "2024-01-01" (fun _ _ => HFail "timeout")) ∅
  = (inr tt, ∅).
Proof. apply (main_no_articles _ _ _ _ _ "KEY"); reflexivity. Defined.

Lemma main_loop_length {C : Type} (extract_step : nat -> jv -> exn + option C)
    (analyze_step : nat -> C -> exn + option jv)
    (i : nat) (arts : list article) (acc res : list (option jv)) :
  main_loop extract_step analyze_step i arts acc = inr res -> length res = length acc + length arts.
Proof.
  revert i acc; induction arts as [|a arts IH]; intros i acc H; simpl in H.
  - injection H as <-. simpl. lia.
  - destruct (extract_step i (a_url a)) as [e|[c|]]; [discriminate| |].
    + destruct (analyze_step i c) as [e|r]; [discriminate|].
      rewrite (IH _ _ H), length_app. simpl. lia.
    + rewrite (IH _ _ H), length_app. simpl. lia.
Qed.

(** X17: an exception escaping extraction or analysis (such as
    [sys.exit(1)] from [get_clipboard_command]) ends [main] after the
    article and URL files were written and before the rated file is
    touched. *)
Theorem main_loop_exception {C : Type} (unquote : string -> string)
    (extract_step : nat -> jv -> exn + option C) (analyze_step : nat -> C -> exn + option jv)
    (env : main_env) (fs : files) (key : string) (all_articles : list article) (e : exn) :
  get_api_key (api_key_var env) = inr key ->
  collect_articles env key (fst (read_keywords unquote (keywords_src env))) [] = all_articles ->
  all_articles <> [] ->
  main_loop extract_step analyze_step 0 all_articles [] = inl e ->
  main unquote extract_step analyze_step env fs
  = (inl e, save_urls (save_to_csv fs all_articles "grcdata.csv") all_articles "urls.csv")
  /\ snd (main unquote extract_step analyze_step env fs) !! "grcdata_rated.csv"
     = fs !! "grcdata_rated.csv".
Proof.
  intros Hk Hc Hne Hl.
  assert (Hm : main unquote extract_step analyze_step env fs
               = (inl e, save_urls (save_to_csv fs all_articles "grcdata.csv") all_articles "urls.csv")).
  { unfold main. rewrite Hk.
    destruct (fst (read_keywords unquote (keywords_src env))) as [|k ks].
    - simpl in Hc. congruence.
    - rewrite Hc. destruct all_articles as [|a r]; [congruence|]. rewrite Hl. reflexivity. }
  split; [exact Hm|]. rewrite Hm. simpl. unfold save_urls.
  rewrite lookup_insert_ne by discriminate.
  unfold save_to_csv. destruct (fs !! "grcdata.csv").
  - rewrite lookup_insert_ne by discriminate. reflexivity.
  - rewrite !lookup_insert_ne by discriminate. reflexivity.
Qed.

Lemma X17_witness :
  main (fun s => s) demo_extract demo_analyze_exit demo_env ∅
  = (inl (SysExit 1), save_urls (save_to_csv ∅ [art_ok] "grcdata.csv") [art_ok] "urls.csv")
  /\ snd (main (fun s => s) demo_extract demo_analyze_exit demo_env ∅) !! "grcdata_rated.csv"
     = (∅ : files) !! "grcdata_rated.csv".
Proof.
  apply (main_loop_exception _ _ _ _ _ "KEY"); [reflexivity|vm_compute; reflexivity|discriminate|reflexivity].
Defined.

(** X18: when the loop completes, [main] has appended the valid Articles
    to ['grcdata.csv'], written one url per Article with a url to
    ['urls.csv'], and written the rated file from analysis results exactly
    as many as the Articles. *)
Theorem main_completes {C : Type} (unquote : string -> string)
    (extract_step : nat -> jv -> exn + option C) (analyze_step : nat -> C -> exn + option jv)
    (env : main_env) (fs : files) (key : string) (all_articles : list article)
    (results : list (option jv)) :
  get_api_key (api_key_var env) = inr key ->
  collect_articles env key (fst (read_keywords unquote (keywords_src env))) [] = all_articles ->
  all_articles <> [] ->
  main_loop extract_step analyze_step 0 all_articles [] = inr results ->
  fst (main unquote extract_step analyze_step env fs) = inr tt
  /\ length results = length all_articles
  /\ snd (main unquote extract_step analyze_step env fs) !! "grcdata.csv"
     = Some (prior_rows fs "grcdata.csv" ++ map article_cells (List.filter article_valid all_articles))%list
  /\ snd (main unquote extract_step analyze_step env fs) !! "urls.csv" = Some (url_rows all_articles)
  /\ snd (main unquote extract_step analyze_step env fs) !! "grcdata_rated.csv"
     = Some (rated_header :: fst (rated_rows all_articles results)).
Proof.
  intros Hk Hc Hne Hl.
  assert (Hm : main unquote extract_step analyze_step env fs
               = (inr tt, fst (create_rated_csv
                                 (save_urls (save_to_csv fs all_articles "grcdata.csv") all_articles "urls.csv")
                                 all_articles results))).
  { unfold main. rewrite Hk.
    destruct (fst (read_keywords unquote (keywords_src env))) as [|k ks].
    - simpl in Hc. congruence.
    - rewrite Hc. destruct all_articles as [|a r]; [congruence|]. rewrite Hl. reflexivity. }
  rewrite Hm. simpl.
  split; [reflexivity|].
  split; [pose proof (main_loop_length _ _ _ _ _ _ Hl); simpl in *; lia|].
  unfold create_rated_csv. destruct (rated_rows all_articles results) as [rs e] eqn:E. simpl.
  split; [|split].
  - rewrite lookup_insert_ne by discriminate. unfold save_urls.
    rewrite lookup_insert_ne by discriminate. apply save_to_csv_lookup.
  - rewrite lookup_insert_ne by discriminate. unfold save_urls. apply lookup_insert_eq.
  - apply lookup_insert_eq.
Qed.

Lemma X18_witness :
  fst (main (fun s => s) demo_extract demo_analyze_none demo_env ∅) = inr tt
  /\ length [@None jv] = length [art_ok]
  /\ snd (main (fun s => s) demo_extract demo_analyze_none demo_env ∅) !! "grcdata.csv"
     = Some (prior_rows ∅ "grcdata.csv" ++ map article_cells (List.filter article_valid [art_ok]))%list
  /\ snd (main (fun s => s) demo_extract demo_analyze_none demo_env ∅) !! "urls.csv" = Some (url_rows [art_ok])
  /\ snd (main (fun s => s) demo_extract demo_analyze_none demo_env ∅) !! "grcdata_rated.csv"
     = Some (rated_header :: fst (rated_rows [art_ok] [None])).
Proof.
  apply (main_completes _ _ _ _ _ "KEY"); [reflexivity|vm_compute; reflexivity|discriminate|reflexivity].
Defined.
